(** * Alfred agentic RAG: the guest corpus and the guest lookup tool

    A shallow embedding of the two demonstration scripts
    [smolagents_rag.py] and [llama_index_rag.py]: the list comprehension
    that turns the guest dataset into documents, and the retrieval
    function handed to the agent framework as a tool.  The BM25 index is
    a third-party object in both scripts; the tool code is embedded over
    an arbitrary retriever, and a retriever following the written
    retrieval contract is given separately. *)

From Stdlib Require Import QArith Sorted.
From stdpp Require Import gmap strings list sorting.
From Stdlib Require Import Ascii.

Local Open Scope string_scope.

(** ** Python string helpers *)

(** The one-character string ["\n"]. *)
Definition LF : string := String (ascii_of_nat 10) EmptyString.

(** The separator ["\n\n"] used between retrieved documents. *)
Definition LFLF : string := LF +:+ LF.

(** [sep.join(parts)]: the parts in order with [sep] between neighbours,
    the empty string for an empty list. *)
Fixpoint str_join (sep : string) (parts : list string) : string :=
  match parts with
  | [] => ""
  | [p] => p
  | p :: rest => p +:+ sep +:+ str_join sep rest
  end.

(** Truthiness of a Python list: [if results:] takes the first branch
    exactly when the list has an element. *)
Definition truthy {A : Type} (l : list A) : bool :=
  match l with
  | [] => false
  | _ :: _ => true
  end.

(** ** Data model *)

(** A row of the guest dataset. *)
Record GuestRecord : Type := mkGuest {
  name : string;
  relation : string;
  description : string;
  email : string
}.

(** The string returned when the retriever yields nothing. *)
Definition NO_RELEVANT : string := "No relevant documents found".

(** The four-line text of a guest as the corpus contract words it: the
    strings ["Name: {name}"], ["Relation: {relation}"],
    ["Description: {description}"] and ["Email: {email}"] joined, in that
    order, by a newline. *)
Definition four_line_text (guest : GuestRecord) : string :=
  str_join LF
    [ "Name: " +:+ name guest;
      "Relation: " +:+ relation guest;
      "Description: " +:+ description guest;
      "Email: " +:+ email guest ].

(** ** Calls on an object

    A method call is a function from the object it runs on to its
    return value and the object afterwards. *)

Definition Method (S A : Type) : Type := S -> A * S.

Definition m_ret {S A : Type} (a : A) : Method S A := fun self => (a, self).

Definition m_bind {S A B : Type} (m : Method S A) (f : A -> Method S B)
    : Method S B :=
  fun self => let (a, self') := m self in f a self'.

(** Reading an attribute of [self]. *)
Definition m_get {S A : Type} (attr : S -> A) : Method S A :=
  fun self => (attr self, self).

Notation "x <<- m ;; k" := (m_bind m (fun x => k))
  (at level 100, m at next level, right associativity).

(** The same method called once per argument, in order, on one object;
    the return values are collected. *)
Fixpoint call_each {S A B : Type} (method : A -> Method S B)
    (args : list A) : Method S (list B) :=
  match args with
  | [] => m_ret []
  | a :: rest =>
      b <<- method a ;;
      bs <<- call_each method rest ;;
      m_ret (b :: bs)
  end.

(** Modelled from the spec: the error taxonomy of the error-handling
    design, which the source neither declares nor raises. *)
Inductive Error : Type :=
  | IndexBuildError
  | NotInitializedError
  | QueryError.

(** How a call ends: with a returned string or with an exception. *)
Inductive Outcome : Type :=
  | Returned (value : string)
  | Raised (e : Error).

(** ** The smolagents script *)

Module Smolagents.

(** langchain's [Document(page_content=..., metadata=...)]. *)
Record Document : Type := mkDocument {
  page_content : string;
  metadata : gmap string string
}.

(** The body of the comprehension.  The list handed to ["\n".join] has
    three elements: the source has no comma between the Description
    and the Email literals, so Python concatenates the two adjacent
    f-strings into one element. *)
Definition make_document (guest : GuestRecord) : Document :=
  {| page_content :=
       str_join LF
         [ "Name: " +:+ name guest;
           "Relation: " +:+ relation guest;
           ("Description: " +:+ description guest)
             +:+ ("Email: " +:+ email guest) ];
     metadata := {[ "name" := name guest ]} |}.

(** [docs = [Document(...) for guest in guest_dataset]]. *)
Definition docs (guest_dataset : list GuestRecord) : list Document :=
  map make_document guest_dataset.

(** Class attributes of [GuestInfoRetrieverTool]. *)
Definition tool_name : string := "guest_info_retriever".
Definition description : string :=
  "Retrieves information about a guest by name or relation".
Definition output_type : string := "string".

Section Tool.

(** langchain's [BM25Retriever]: the object, its constructor
    [from_documents] and its [invoke] method.  The class is imported,
    not defined by the script, so the tool is embedded over any
    retriever. *)
Variable Retriever : Type.
Variable from_documents : list Document -> Retriever.
Variable invoke : Retriever -> string -> list Document.

(** The instance attributes [__init__] assigns. *)
Record GuestInfoRetrieverTool : Type := mkTool {
  is_initialized : bool;
  retriever : Retriever
}.

Definition __init__ (docs : list Document) : GuestInfoRetrieverTool :=
  {| is_initialized := false;
     retriever := from_documents docs |}.

(** [forward]: reads [self.retriever], assigns nothing. *)
Definition forward (query : string)
    : Method GuestInfoRetrieverTool string :=
  r <<- m_get retriever ;;
  let results := invoke r query in
  if truthy results
  then m_ret (str_join LFLF (map page_content (take 3 results)))
  else m_ret NO_RELEVANT.

(** The string a call of [forward] returns. *)
Definition forward_result (self : GuestInfoRetrieverTool)
    (query : string) : string :=
  fst (forward query self).

(** The tool after a call of [forward]. *)
Definition forward_self (self : GuestInfoRetrieverTool)
    (query : string) : GuestInfoRetrieverTool :=
  snd (forward query self).

(** [forward] has no [raise]: a call ends by returning its string. *)
Definition forward_outcome (self : GuestInfoRetrieverTool)
    (query : string) : Outcome :=
  Returned (forward_result self query).

End Tool.

End Smolagents.

(** ** The llama_index script *)

Module LlamaIndex.

(** llama_index's [Document(text=..., metadata=...)]. *)
Record Document : Type := mkDocument {
  text : string;
  metadata : gmap string string
}.

(** [guest_dataset['name']]: a column of the dataset as a list. *)
Definition column (field : GuestRecord -> string)
    (guest_dataset : list GuestRecord) : list string :=
  map field guest_dataset.

(** The body of the comprehension at index [i].  Each
    [guest_dataset[col][i]] is a list lookup that raises [IndexError]
    out of range; [None] stands for the raised exception. *)
Definition make_document (guest_dataset : list GuestRecord) (i : nat)
    : option Document :=
  n ← column name guest_dataset !! i;
  r ← column relation guest_dataset !! i;
  d ← column description guest_dataset !! i;
  e ← column email guest_dataset !! i;
  n' ← column name guest_dataset !! i;
  Some {| text :=
            str_join LF
              [ "Name: " +:+ n;
                "Relation: " +:+ r;
                "Description: " +:+ d;
                "Email: " +:+ e ];
          metadata := {[ "name" := n' ]} |}.

(** [docs = [Document(...) for i in range(len(guest_dataset))]]. *)
Definition docs (guest_dataset : list GuestRecord)
    : option (list Document) :=
  mapM (make_document guest_dataset) (seq 0 (length guest_dataset)).

(** The document the comprehension builds from one row. *)
Definition document_of (guest : GuestRecord) : Document :=
  {| text :=
       str_join LF
         [ "Name: " +:+ name guest;
           "Relation: " +:+ relation guest;
           "Description: " +:+ description guest;
           "Email: " +:+ email guest ];
     metadata := {[ "name" := name guest ]} |}.

(** The docstring of [get_guest_info_retirever], without the
    surrounding indentation and line breaks. *)
Definition get_guest_info_retirever_doc : string :=
  "Retrieves detailed information about gala guests based on their name or relation".

(** llama_index's [NodeWithScore]: a retrieved node with its score;
    [.text] is the text of the node.  The score is a float in Python
    and a rational here. *)
Record NodeWithScore : Type := mkNodeWithScore {
  node : Document;
  score : Q
}.

Definition node_text (n : NodeWithScore) : string := text (node n).

Section Tool.

(** llama_index's [BM25Retriever]: the object, its constructor
    [from_defaults] and its [retrieve] method, all imported. *)
Variable Retriever : Type.
Variable from_defaults : list Document -> Retriever.
Variable retrieve : Retriever -> string -> list NodeWithScore.

(** The module-level names the tool function reads. *)
Record Globals : Type := mkGlobals {
  bm25_retirever : Retriever
}.

(** [bm25_retirever = BM25Retriever.from_defaults(nodes=docs)]. *)
Definition module_init (docs : list Document) : Globals :=
  {| bm25_retirever := from_defaults docs |}.

(** [get_guest_info_retirever]: reads the global retriever, assigns
    nothing, and joins every result (no slice). *)
Definition get_guest_info_retirever (query : string)
    : Method Globals string :=
  r <<- m_get bm25_retirever ;;
  let results := retrieve r query in
  if truthy results
  then m_ret (str_join LFLF (map node_text results))
  else m_ret NO_RELEVANT.

Definition get_guest_info_result (g : Globals) (query : string)
    : string :=
  fst (get_guest_info_retirever query g).

Definition get_guest_info_outcome (g : Globals) (query : string)
    : Outcome :=
  Returned (get_guest_info_result g query).

End Tool.

End LlamaIndex.

(** ** The retrieval contract

    The BM25 retriever behind both tools is a third-party class and
    absent from the scripts.  This module gives a retriever that follows
    the written retrieval contract: score every document of the corpus
    against the query, keep the documents that score above zero, rank
    them by descending score with ties in corpus order, take the first
    [top_k].  The scoring formula is left open (scores are rationals
    standing for BM25's floats); every statement about this retriever
    holds for any scorer. *)

Module Bm25.

(** The score of each document of a corpus against a query. *)
Definition Scorer (Doc : Type) : Type := list Doc -> string -> Doc -> Q.

Section Ranking.

Context {Doc : Type}.

(** The scores for one corpus and one query. *)
Variable relevance : Doc -> Q.

(** Modelled from the spec: a document matches when it scores above
    zero. *)
Definition matches (d : Doc) : bool := negb (Qle_bool (relevance d) 0).

(** Modelled from the spec: one step of the ranking.  Insertion in
    front of the first document that does not score higher: equal scores
    keep the inserted document first. *)
Fixpoint insert_ranked (d : Doc) (ranked : list Doc) : list Doc :=
  match ranked with
  | [] => [d]
  | x :: rest =>
      if Qle_bool (relevance x) (relevance d)
      then d :: x :: rest
      else x :: insert_ranked d rest
  end.

(** Modelled from the spec: rank by descending score, ties in corpus
    order (a stable insertion sort). *)
Definition rank (l : list Doc) : list Doc := foldr insert_ranked [] l.

(** Modelled from the spec: the matching documents of a corpus in
    ranked order. *)
Definition ranked_matches (corpus : list Doc) : list Doc :=
  rank (List.filter matches corpus).

(** Ranked order: no document is followed by one that scores higher. *)
Definition descending (l : list Doc) : Prop :=
  StronglySorted (fun a b => (relevance b <= relevance a)%Q) l.

End Ranking.

(** Modelled from the spec: the retrieval index of the imported
    retriever; the corpus, the scorer and the retriever's own cap. *)
Record Index (Doc : Type) : Type := mkIndex {
  scorer : Scorer Doc;
  top_k : nat;
  corpus : list Doc
}.
Arguments mkIndex {Doc} _ _ _.
Arguments scorer {Doc} _.
Arguments top_k {Doc} _.
Arguments corpus {Doc} _.

(** Modelled from the spec: the constructor of the imported retriever
    ([from_documents], [from_defaults]).  Building the index keeps the
    corpus as it is and cannot fail: the documents of this model always
    have a text, and an empty corpus is valid. *)
Definition build {Doc : Type} (sc : Scorer Doc) (k : nat)
    (docs : list Doc) : Index Doc :=
  mkIndex sc k docs.

(** Modelled from the spec: the ranked retrieval of the imported
    retriever, before the cap; the documents of the corpus that match
    the query, best first. *)
Definition ranking {Doc : Type} (ix : Index Doc) (query : string)
    : list Doc :=
  ranked_matches (scorer ix (corpus ix) query) (corpus ix).

(** Modelled from the spec: the query method of the imported retriever
    ([invoke]); the first [top_k] documents of the ranking. *)
Definition search {Doc : Type} (ix : Index Doc) (query : string)
    : list Doc :=
  take (top_k ix) (ranking ix query).

(** Modelled from the spec: the query method of the imported llama_index
    retriever ([retrieve]), which wraps each hit with its score. *)
Definition search_nodes (ix : Index LlamaIndex.Document)
    (query : string) : list LlamaIndex.NodeWithScore :=
  map (fun d => LlamaIndex.mkNodeWithScore d
                  (scorer ix (corpus ix) query d))
      (search ix query).

End Bm25.

(** ** A sample scorer and sample guests

    Used to run the definitions on concrete corpora.  The scorer counts
    how often the words of the query occur in the document; it stands in
    for BM25 only in examples. *)

Definition is_word_char (c : ascii) : bool :=
  let n := nat_of_ascii c in
  (((48 <=? n) && (n <=? 57)) || ((65 <=? n) && (n <=? 90))
   || ((97 <=? n) && (n <=? 122)))%nat.

Definition lower (c : ascii) : ascii :=
  let n := nat_of_ascii c in
  if ((65 <=? n) && (n <=? 90))%nat then ascii_of_nat (n + 32) else c.

Definition flush (word : string) (rest : list string) : list string :=
  match word with
  | EmptyString => rest
  | _ => word :: rest
  end.

(** Case-folded words of a string, split at every other character. *)
Fixpoint tokenize_from (word : string) (s : string) : list string :=
  match s with
  | EmptyString => flush word []
  | String c s' =>
      if is_word_char c
      then tokenize_from (word +:+ String (lower c) EmptyString) s'
      else flush word (tokenize_from EmptyString s')
  end.

Definition tokenize (s : string) : list string := tokenize_from EmptyString s.

Definition occurrences (w : string) (ws : list string) : nat :=
  length (List.filter (String.eqb w) ws).

Definition word_count_score {Doc : Type} (text_of : Doc -> string)
    : Bm25.Scorer Doc :=
  fun _ query d =>
    let ws := tokenize (text_of d) in
    inject_Z (Z.of_nat
      (foldr (fun w acc => occurrences w ws + acc) 0 (tokenize query))).

Definition ada : GuestRecord :=
  mkGuest "Ada Lovelace" "aunt" "mathematician" "ada@example.com".

Definition marie : GuestRecord :=
  mkGuest "Marie Curie" "friend" "physicist and chemist" "marie@example.com".

(** Five guests whose descriptions all mention the gala. *)
Definition gala_guests : list GuestRecord :=
  [ mkGuest "Ann" "host" "opens the gala tonight" "ann@example.com";
    mkGuest "Bob" "chef" "gala dinner, gala dessert, gala toast" "bob@example.com";
    mkGuest "Cy" "pianist" "plays at the gala ball" "cy@example.com";
    mkGuest "Di" "sponsor" "gala patron of every gala night" "di@example.com";
    mkGuest "Ed" "usher" "seats the gala guests" "ed@example.com" ].

(** The smolagents tool over a contract retriever with the sample
    scorer and retriever cap [k]. *)
Definition sample_tool (k : nat) (guests : list GuestRecord)
    : Smolagents.GuestInfoRetrieverTool (Bm25.Index Smolagents.Document) :=
  Smolagents.__init__ _
    (Bm25.build (word_count_score Smolagents.page_content) k)
    (Smolagents.docs guests).

(** The llama_index globals over a contract retriever with the sample
    scorer and retriever cap [k]. *)
Definition sample_globals (k : nat) (guests : list GuestRecord)
    : LlamaIndex.Globals (Bm25.Index LlamaIndex.Document) :=
  LlamaIndex.module_init _
    (Bm25.build (word_count_score LlamaIndex.text) k)
    (map LlamaIndex.document_of guests).

(** The contract index of the llama_index script over the five gala
    guests, with retriever cap [k]. *)
Definition gala_index (k : nat) : Bm25.Index LlamaIndex.Document :=
  Bm25.build (word_count_score LlamaIndex.text) k
    (map LlamaIndex.document_of gala_guests).

(** The description string as the tool contract words it, with its
    closing full stop. *)
Definition stated_description : string :=
  "Retrieves information about a guest by name or relation.".

(** ** The tool as a Python object

    The instance of [GuestInfoRetrieverTool] as its attribute
    dictionary, so that an instance on which [__init__] has not run can
    be written, and over a retriever whose [invoke] may change the
    retriever itself.  Reading an attribute the instance lacks raises
    [AttributeError]. *)

Module Stateful.

(** What an attribute of the instance holds. *)
Inductive Value (Retriever : Type) : Type :=
  | VBool (b : bool)
  | VRetriever (r : Retriever).
Arguments VBool {Retriever} _.
Arguments VRetriever {Retriever} _.

(** The exceptions a call can end with: Python's [AttributeError] for
    a missing attribute, or one of the errors the design names. *)
Inductive Exception : Type :=
  | AttributeError (attribute : string)
  | Declared (e : Error).

(** How a call ends. *)
Inductive Completion : Type :=
  | Returns (value : string)
  | Raises (e : Exception).

(** A retriever call that leaves the retriever as it was. *)
Definition read_only {R A : Type} (f : R -> string -> A)
    : R -> string -> A * R :=
  fun r query => (f r query, r).

Section Object.

(** The imported retriever class; [invoke] returns the documents and
    the retriever as the call leaves it. *)
Variable Retriever : Type.
Variable from_documents : list Smolagents.Document -> Retriever.
Variable invoke :
  Retriever -> string -> list Smolagents.Document * Retriever.

(** The instance before [__init__] has run: no attribute is set. *)
Definition fresh : gmap string (Value Retriever) := ∅.

(** [__init__]: assigns [is_initialized], then [retriever]. *)
Definition __init__ (self : gmap string (Value Retriever))
    (docs : list Smolagents.Document) : gmap string (Value Retriever) :=
  <["retriever" := VRetriever (from_documents docs)]>
    (<["is_initialized" := VBool false]> self).

(** [forward]: reads [self.retriever] and calls its [invoke].  A
    missing [retriever] attribute raises [AttributeError] before
    anything is returned; the retriever is stored back as the call
    left it. *)
Definition forward (query : string)
    : Method (gmap string (Value Retriever)) Completion :=
  fun self =>
    match self !! "retriever" with
    | None => (Raises (AttributeError "retriever"), self)
    | Some (VBool _) => (Raises (AttributeError "invoke"), self)
    | Some (VRetriever r) =>
        let (results, r') := invoke r query in
        (Returns
           (if truthy results
            then str_join LFLF
                   (map Smolagents.page_content (take 3 results))
            else NO_RELEVANT),
         <["retriever" := VRetriever r']> self)
    end.

(** The call path the class inherits from [smolagents.Tool], its base
    class (imported by the script, not defined in it).  [Tool.setup]
    sets [is_initialized]; [Tool.__call__] runs [setup] when
    [is_initialized] is false and then runs [forward].  Only what the
    path does with [is_initialized] and [forward] is written down; its
    conversions of arguments and result are left out. *)
Definition setup (self : gmap string (Value Retriever))
    : gmap string (Value Retriever) :=
  <["is_initialized" := VBool true]> self.

Definition __call__ (query : string)
    : Method (gmap string (Value Retriever)) Completion :=
  fun self =>
    match self !! "is_initialized" with
    | None => (Raises (AttributeError "is_initialized"), self)
    | Some (VBool false) => forward query (setup self)
    | Some _ => forward query self
    end.

End Object.

Section Function.

(** The imported llama_index retriever; [retrieve] returns the nodes and
    the retriever as the call leaves it. *)
Variable Retriever : Type.
Variable retrieve :
  Retriever -> string -> list LlamaIndex.NodeWithScore * Retriever.

(** [get_guest_info_retirever] over the global retriever. *)
Definition get_guest_info_retirever (query : string)
    : Method (LlamaIndex.Globals Retriever) string :=
  fun g =>
    let (results, r') := retrieve (LlamaIndex.bm25_retirever _ g) query in
    (if truthy results
     then str_join LFLF (map LlamaIndex.node_text results)
     else NO_RELEVANT,
     LlamaIndex.mkGlobals _ r').

End Function.

End Stateful.

(** A retriever that changes with every call: it holds a counter,
    yields that many copies of Ada's document and counts up. *)
Definition counting_invoke (n : nat) (query : string)
    : list Smolagents.Document * nat :=
  (replicate n (Smolagents.make_document ada), S n).

(** The instance [__init__] builds from the fresh one over Ada Lovelace
    and Marie Curie, with the contract retriever and the sample
    scorer. *)
Definition sample_instance
    : gmap string (Stateful.Value (Bm25.Index Smolagents.Document)) :=
  Stateful.__init__ _
    (Bm25.build (word_count_score Smolagents.page_content) 4)
    (Stateful.fresh _) (Smolagents.docs [ada; marie]).

(** ** Observations on document texts *)

(** The string holds no line break. *)
Fixpoint newline_free (s : string) : bool :=
  match s with
  | EmptyString => true
  | String c s' => negb (Ascii.eqb c (ascii_of_nat 10)) && newline_free s'
  end.

(** The three fields that the llama_index text ends with a line break
    hold no line break themselves. *)
Definition single_line_fields (guest : GuestRecord) : bool :=
  newline_free (name guest) && newline_free (relation guest)
  && newline_free (description guest).

(** Python's [t in s] on strings: [t] is a contiguous piece of [s]. *)
Definition occurs_in (t s : string) : Prop :=
  exists pre post, s = pre +:+ t +:+ post.

(** * Properties *)

(** ** Strings *)

Lemma length_append (a b : string) :
  String.length (a +:+ b) = String.length a + String.length b.
Proof. induction a as [|c a IH]; simpl; [reflexivity | now rewrite IH]. Qed.

Lemma truthy_false {A : Type} (l : list A) : truthy l = false <-> l = [].
Proof. destruct l; simpl; split; congruence. Qed.

Lemma truthy_true {A : Type} (l : list A) : truthy l = true <-> l <> [].
Proof. destruct l; simpl; split; congruence. Qed.

(** ** Corpus construction *)

Lemma smolagents_docs_lookup (records : list GuestRecord) (i : nat) :
  Smolagents.docs records !! i = Smolagents.make_document <$> records !! i.
Proof. unfold Smolagents.docs. apply list_lookup_fmap. Qed.

(** Inside [range(len(guest_dataset))] every column lookup succeeds and
    the comprehension body builds the document of row [i]. *)
Lemma llama_make_document_row (records : list GuestRecord) (i : nat)
    (r : GuestRecord) :
  records !! i = Some r ->
  LlamaIndex.make_document records i = Some (LlamaIndex.document_of r).
Proof.
  intros Hi. unfold LlamaIndex.make_document, LlamaIndex.column.
  rewrite !list_lookup_fmap, Hi. reflexivity.
Qed.

(** The index-driven comprehension never raises and yields one document
    per row, in row order. *)
Lemma llama_docs_total (records : list GuestRecord) :
  LlamaIndex.docs records = Some (map LlamaIndex.document_of records).
Proof.
  unfold LlamaIndex.docs. apply mapM_Some.
  apply Forall2_same_length_lookup. split.
  - now rewrite length_seq, length_map.
  - intros i j d Hj Hd.
    apply lookup_seq in Hj as [-> Hlt]. simpl in *.
    rewrite list_lookup_fmap in Hd.
    destruct (records !! i) as [r|] eqn:Hr; simpl in Hd; [|discriminate].
    injection Hd as <-. now apply llama_make_document_row.
Qed.

(** C5: the built corpus has one document per record, and the document
    at index [i] carries the name of the record at index [i] in its
    metadata; in the smolagents script and in the llama_index script,
    whose index-driven comprehension completes without an [IndexError].
    It holds for every record sequence, the non-empty ones included. *)
Theorem corpus_follows_records (records : list GuestRecord) :
  (length (Smolagents.docs records) = length records
   /\ forall (i : nat) (r : GuestRecord),
        records !! i = Some r ->
        exists d, Smolagents.docs records !! i = Some d
                  /\ Smolagents.metadata d !! "name" = Some (name r))
  /\ exists ldocs,
       LlamaIndex.docs records = Some ldocs
       /\ length ldocs = length records
       /\ forall (i : nat) (r : GuestRecord),
            records !! i = Some r ->
            exists d, ldocs !! i = Some d
                      /\ LlamaIndex.metadata d !! "name" = Some (name r).
Proof.
  split; [split|].
  - unfold Smolagents.docs. apply length_map.
  - intros i r Hi. exists (Smolagents.make_document r). split.
    + now rewrite smolagents_docs_lookup, Hi.
    + simpl. apply lookup_singleton_eq.
  - exists (map LlamaIndex.document_of records). split; [|split].
    + apply llama_docs_total.
    + apply length_map.
    + intros i r Hi. exists (LlamaIndex.document_of r). split.
      * now rewrite list_lookup_fmap, Hi.
      * simpl. apply lookup_singleton_eq.
Qed.

(** The smolagents text of any guest is one character shorter than the
    four-line text: the newline between the description and the email
    is missing. *)
Lemma smolagents_text_one_short (guest : GuestRecord) :
  String.length (four_line_text guest)
  = S (String.length (Smolagents.page_content
                        (Smolagents.make_document guest))).
Proof.
  unfold four_line_text, Smolagents.make_document. simpl.
  repeat (rewrite !length_append; simpl). lia.
Qed.

Lemma llama_text_four_lines (guest : GuestRecord) :
  LlamaIndex.text (LlamaIndex.document_of guest) = four_line_text guest.
Proof. reflexivity. Qed.

(** C2: the smolagents script does not build the four-line text.  For
    the guest Ada Lovelace the description and the email share one line,
    ["Description: mathematicianEmail: ada@example.com"], while the
    llama_index script builds the four lines; both map ["name"] to the
    record's name. *)
Theorem smolagents_text_joins_description_and_email :
  Smolagents.page_content (Smolagents.make_document ada)
    = "Name: Ada Lovelace" +:+ LF +:+ "Relation: aunt" +:+ LF
      +:+ "Description: mathematicianEmail: ada@example.com"
  /\ four_line_text ada
    = "Name: Ada Lovelace" +:+ LF +:+ "Relation: aunt" +:+ LF
      +:+ "Description: mathematician" +:+ LF +:+ "Email: ada@example.com"
  /\ Smolagents.page_content (Smolagents.make_document ada)
     <> four_line_text ada
  /\ LlamaIndex.docs [ada]
     = Some [ {| LlamaIndex.text := four_line_text ada;
                 LlamaIndex.metadata := {[ "name" := "Ada Lovelace" ]} |} ]
  /\ Smolagents.metadata (Smolagents.make_document ada) !! "name"
     = Some "Ada Lovelace".
Proof.
  split; [reflexivity|]. split; [reflexivity|]. split; [|split].
  - intros Heq. pose proof (smolagents_text_one_short ada) as Hlen.
    rewrite Heq in Hlen. lia.
  - reflexivity.
  - apply lookup_singleton_eq.
Qed.

(** ** The ranking of the retrieval contract *)

Section RankingFacts.

Context {Doc : Type}.
Variable relevance : Doc -> Q.

Local Abbreviation matches := (Bm25.matches relevance).
Local Abbreviation insert_ranked := (Bm25.insert_ranked relevance).
Local Abbreviation rank := (Bm25.rank relevance).
Local Abbreviation ranked_matches := (Bm25.ranked_matches relevance).
Local Abbreviation descending := (Bm25.descending relevance).

Lemma matches_positive (d : Doc) :
  matches d = true <-> (0 < relevance d)%Q.
Proof.
  unfold Bm25.matches. rewrite negb_true_iff.
  split.
  - intros Hb. apply Qnot_le_lt. intros Hle.
    apply Qle_bool_iff in Hle. congruence.
  - intros Hlt. destruct (Qle_bool (relevance d) 0) eqn:Hb; [|reflexivity].
    apply Qle_bool_iff in Hb. exfalso. now apply (Qlt_not_le _ _ Hlt).
Qed.

Lemma insert_ranked_perm (d : Doc) (l : list Doc) :
  insert_ranked d l ≡ₚ d :: l.
Proof.
  induction l as [|x l IH]; simpl; [reflexivity|].
  destruct (Qle_bool (relevance x) (relevance d)); [reflexivity|].
  rewrite IH. apply Permutation_swap.
Qed.

Lemma rank_perm (l : list Doc) : rank l ≡ₚ l.
Proof.
  induction l as [|x l IH]; simpl; [reflexivity|].
  unfold Bm25.rank in *. simpl. rewrite insert_ranked_perm.
  now constructor.
Qed.

Lemma insert_ranked_descending (d : Doc) (l : list Doc) :
  descending l -> descending (insert_ranked d l).
Proof.
  unfold Bm25.descending.
  induction l as [|x l IH]; intros Hs; simpl.
  - constructor; constructor.
  - inversion Hs as [|? ? Hl Hx]; subst.
    destruct (Qle_bool (relevance x) (relevance d)) eqn:Hb.
    + apply Qle_bool_iff in Hb.
      constructor; [assumption|].
      constructor; [assumption|].
      eapply Forall_impl; [exact Hx|].
      intros b Hbx. simpl in *. now apply Qle_trans with (relevance x).
    + constructor; [now apply IH|].
      rewrite insert_ranked_perm. constructor; [|assumption].
      apply Qlt_le_weak, Qnot_le_lt. intros Hle.
      apply Qle_bool_iff in Hle. congruence.
Qed.

Lemma rank_descending (l : list Doc) : descending (rank l).
Proof.
  induction l as [|x l IH]; unfold Bm25.rank in *; simpl.
  - constructor.
  - now apply insert_ranked_descending.
Qed.

Lemma ranked_matches_perm (corpus : list Doc) :
  ranked_matches corpus ≡ₚ List.filter matches corpus.
Proof. apply rank_perm. Qed.

Lemma elem_of_ranked_matches (corpus : list Doc) (d : Doc) :
  d ∈ ranked_matches corpus <-> d ∈ corpus /\ (0 < relevance d)%Q.
Proof.
  rewrite ranked_matches_perm, !list_elem_of_In, filter_In.
  now rewrite matches_positive.
Qed.

(** The ranking is empty exactly when no document scores above zero. *)
Lemma ranked_matches_nil (corpus : list Doc) :
  ranked_matches corpus = []
  <-> forall d, d ∈ corpus -> ~ (0 < relevance d)%Q.
Proof.
  split.
  - intros Hnil d Hd Hpos.
    assert (Hin : d ∈ ranked_matches corpus)
      by now apply elem_of_ranked_matches.
    rewrite Hnil in Hin. now apply not_elem_of_nil in Hin.
  - intros Hnone. destruct (ranked_matches corpus) as [|x l] eqn:Hr;
      [reflexivity|].
    assert (Hin : x ∈ ranked_matches corpus) by (rewrite Hr; left).
    apply elem_of_ranked_matches in Hin as [Hx Hpos].
    now destruct (Hnone x Hx).
Qed.

(** When every document matches, the ranking reorders the corpus. *)
Lemma ranked_matches_all (corpus : list Doc) :
  (forall d, d ∈ corpus -> (0 < relevance d)%Q) ->
  ranked_matches corpus ≡ₚ corpus.
Proof.
  intros Hall. rewrite ranked_matches_perm.
  replace (List.filter matches corpus) with corpus; [reflexivity|].
  induction corpus as [|x l IH]; [reflexivity|]. simpl.
  assert (Hx : matches x = true) by (apply matches_positive, Hall; left).
  rewrite Hx. f_equal. apply IH. intros d Hd. apply Hall. now right.
Qed.

(** Ties keep corpus order: among the documents of any one score the
    ranking changes nothing. *)
Lemma insert_ranked_tie (q : Q) (d : Doc) (l : list Doc) :
  descending l ->
  List.filter (fun x => Qeq_bool (relevance x) q) (insert_ranked d l)
  = List.filter (fun x => Qeq_bool (relevance x) q) (d :: l).
Proof.
  unfold Bm25.descending.
  induction l as [|x l IH]; intros Hs; [reflexivity|].
  inversion Hs as [|? ? Hl Hx]; subst.
  cbn [Bm25.insert_ranked].
  destruct (Qle_bool (relevance x) (relevance d)) eqn:Hb; [reflexivity|].
  assert (Hlt : (relevance d < relevance x)%Q).
  { apply Qnot_le_lt. intros Hle. apply Qle_bool_iff in Hle. congruence. }
  cbn [List.filter]. rewrite (IH Hl). cbn [List.filter].
  destruct (Qeq_bool (relevance x) q) eqn:Hxq;
    destruct (Qeq_bool (relevance d) q) eqn:Hdq; try reflexivity.
  apply Qeq_bool_iff in Hxq, Hdq. rewrite Hxq, Hdq in Hlt.
  now apply Qlt_irrefl in Hlt.
Qed.

Lemma rank_stable (q : Q) (l : list Doc) :
  List.filter (fun x => Qeq_bool (relevance x) q) (rank l)
  = List.filter (fun x => Qeq_bool (relevance x) q) l.
Proof.
  induction l as [|x l IH]; [reflexivity|].
  unfold Bm25.rank in *. cbn [foldr].
  rewrite insert_ranked_tie by apply rank_descending.
  cbn [List.filter]. now rewrite IH.
Qed.

End RankingFacts.

Lemma search_subseteq {Doc : Type} (ix : Bm25.Index Doc) (query : string) :
  Bm25.search ix query ⊆ Bm25.corpus ix.
Proof.
  intros d Hd. unfold Bm25.search, Bm25.ranking in Hd.
  apply subseteq_take in Hd.
  now apply elem_of_ranked_matches in Hd as [Hd _].
Qed.

(** ** The tool functions over any retriever *)

Section AnyRetriever.

Variable Retriever : Type.
Variable invoke : Retriever -> string -> list Smolagents.Document.
Variable retrieve : Retriever -> string -> list LlamaIndex.NodeWithScore.

Lemma forward_run (self : Smolagents.GuestInfoRetrieverTool Retriever)
    (query : string) :
  Smolagents.forward _ invoke query self
  = (if truthy (invoke (Smolagents.retriever _ self) query)
     then str_join LFLF
            (map Smolagents.page_content
               (take 3 (invoke (Smolagents.retriever _ self) query)))
     else NO_RELEVANT,
     self).
Proof.
  unfold Smolagents.forward, m_bind, m_get, m_ret.
  now destruct (truthy _).
Qed.

Lemma get_guest_info_run (g : LlamaIndex.Globals Retriever)
    (query : string) :
  LlamaIndex.get_guest_info_retirever _ retrieve query g
  = (if truthy (retrieve (LlamaIndex.bm25_retirever _ g) query)
     then str_join LFLF
            (map LlamaIndex.node_text
               (retrieve (LlamaIndex.bm25_retirever _ g) query))
     else NO_RELEVANT,
     g).
Proof.
  unfold LlamaIndex.get_guest_info_retirever, m_bind, m_get, m_ret.
  now destruct (truthy _).
Qed.

(** A run of calls leaves the tool as it was. *)
Lemma forward_calls_keep_self
    (self : Smolagents.GuestInfoRetrieverTool Retriever)
    (queries : list string) :
  snd (call_each (Smolagents.forward _ invoke) queries self) = self.
Proof.
  induction queries as [|q qs IH]; [reflexivity|].
  cbn [call_each]. unfold m_bind at 1. rewrite forward_run.
  unfold m_bind at 1.
  destruct (call_each (Smolagents.forward _ invoke) qs self) as [bs s']
    eqn:Hrun.
  simpl in IH. subst s'. reflexivity.
Qed.

Lemma get_guest_info_calls_keep_globals
    (g : LlamaIndex.Globals Retriever) (queries : list string) :
  snd (call_each (LlamaIndex.get_guest_info_retirever _ retrieve)
         queries g) = g.
Proof.
  induction queries as [|q qs IH]; [reflexivity|].
  cbn [call_each]. unfold m_bind at 1. rewrite get_guest_info_run.
  unfold m_bind at 1.
  destruct (call_each (LlamaIndex.get_guest_info_retirever _ retrieve)
              qs g) as [bs g'] eqn:Hrun.
  simpl in IH. subst g'. reflexivity.
Qed.

End AnyRetriever.

(** ** The tools over the retrieval contract *)

Lemma truthy_take {A : Type} (k : nat) (l : list A) :
  1 <= k -> truthy (take k l) = truthy l.
Proof. intros Hk. destruct k; [lia|]. now destruct l. Qed.

Lemma truthy_map {A B : Type} (f : A -> B) (l : list A) :
  truthy (map f l) = truthy l.
Proof. now destruct l. Qed.

Lemma smolagents_contract_result
    (sc : Bm25.Scorer Smolagents.Document) (k : nat)
    (docs : list Smolagents.Document) (query : string) :
  1 <= k ->
  Smolagents.forward_result _ Bm25.search
    (Smolagents.__init__ _ (Bm25.build sc k) docs) query
  = if truthy (Bm25.ranking (Bm25.build sc k docs) query)
    then str_join LFLF
           (map Smolagents.page_content
              (take (3 `min` k) (Bm25.ranking (Bm25.build sc k docs) query)))
    else NO_RELEVANT.
Proof.
  intros Hk. unfold Smolagents.forward_result. rewrite forward_run.
  cbn [fst Smolagents.__init__ Smolagents.retriever].
  unfold Bm25.search. cbn [Bm25.top_k Bm25.build].
  rewrite truthy_take by assumption. now rewrite take_take.
Qed.

Lemma llama_contract_result
    (sc : Bm25.Scorer LlamaIndex.Document) (k : nat)
    (docs : list LlamaIndex.Document) (query : string) :
  1 <= k ->
  LlamaIndex.get_guest_info_result _ Bm25.search_nodes
    (LlamaIndex.module_init _ (Bm25.build sc k) docs) query
  = if truthy (Bm25.ranking (Bm25.build sc k docs) query)
    then str_join LFLF
           (map LlamaIndex.text
              (take k (Bm25.ranking (Bm25.build sc k docs) query)))
    else NO_RELEVANT.
Proof.
  intros Hk. unfold LlamaIndex.get_guest_info_result.
  rewrite get_guest_info_run.
  cbn [fst LlamaIndex.module_init LlamaIndex.bm25_retirever].
  unfold Bm25.search_nodes, Bm25.search. cbn [Bm25.top_k Bm25.build].
  rewrite truthy_map, truthy_take by assumption.
  now rewrite map_map.
Qed.

Lemma ranking_nonempty {Doc : Type} (sc : Bm25.Scorer Doc) (k : nat)
    (docs : list Doc) (query : string) :
  (exists d, d ∈ docs /\ (0 < sc docs query d)%Q) ->
  truthy (Bm25.ranking (Bm25.build sc k docs) query) = true.
Proof.
  intros (d & Hd & Hpos). apply truthy_true. intros Hnil.
  unfold Bm25.ranking in Hnil.
  pose proof (proj1 (ranked_matches_nil _ _) Hnil) as Hnone.
  now apply (Hnone d Hd).
Qed.

Lemma ranking_empty {Doc : Type} (sc : Bm25.Scorer Doc) (k : nat)
    (docs : list Doc) (query : string) :
  (forall d, d ∈ docs -> (sc docs query d == 0)%Q) ->
  truthy (Bm25.ranking (Bm25.build sc k docs) query) = false.
Proof.
  intros Hzero. apply truthy_false. unfold Bm25.ranking.
  apply ranked_matches_nil. intros d Hd Hpos. cbn in Hd, Hpos.
  rewrite (Hzero d Hd) in Hpos. now apply Qlt_irrefl in Hpos.
Qed.

(** C1: on a tool built over a corpus, with a retriever that follows
    the retrieval contract with a cap of at least one, the ranking holds
    exactly the corpus documents that score above zero, best first; the
    result is the texts of the first documents of that ranking (as many
    as the retriever's cap allows, and at most three in the smolagents
    script) joined by a blank line when some document scores above zero,
    and exactly the sentinel string when every score is zero, the empty
    corpus included; in both scripts. *)
Theorem retrieve_joins_matches_or_reports_none (k : nat) (Hk : 1 <= k) :
  (forall (sc : Bm25.Scorer Smolagents.Document)
          (docs : list Smolagents.Document) (query : string),
     let ix := Bm25.build sc k docs in
     let result :=
       Smolagents.forward_result _ Bm25.search
         (Smolagents.__init__ _ (Bm25.build sc k) docs) query in
     (forall d, d ∈ Bm25.ranking ix query
                <-> d ∈ docs /\ (0 < sc docs query d)%Q)
     /\ Bm25.descending (sc docs query) (Bm25.ranking ix query)
     /\ ((exists d, d ∈ docs /\ (0 < sc docs query d)%Q) ->
          result = str_join LFLF
                     (map Smolagents.page_content
                        (take (3 `min` k) (Bm25.ranking ix query))))
     /\ ((forall d, d ∈ docs -> (sc docs query d == 0)%Q) ->
          result = NO_RELEVANT))
  /\ (forall (sc : Bm25.Scorer LlamaIndex.Document)
             (docs : list LlamaIndex.Document) (query : string),
        let ix := Bm25.build sc k docs in
        let result :=
          LlamaIndex.get_guest_info_result _ Bm25.search_nodes
            (LlamaIndex.module_init _ (Bm25.build sc k) docs) query in
        (forall d, d ∈ Bm25.ranking ix query
                   <-> d ∈ docs /\ (0 < sc docs query d)%Q)
        /\ Bm25.descending (sc docs query) (Bm25.ranking ix query)
        /\ ((exists d, d ∈ docs /\ (0 < sc docs query d)%Q) ->
             result = str_join LFLF
                        (map LlamaIndex.text (take k (Bm25.ranking ix query))))
        /\ ((forall d, d ∈ docs -> (sc docs query d == 0)%Q) ->
             result = NO_RELEVANT)).
Proof.
  split; intros sc docs query ix result; subst ix result;
    (split; [intros d; apply elem_of_ranked_matches|]);
    (split; [apply rank_descending|]).
  - rewrite smolagents_contract_result by assumption. split; intros H.
    + now rewrite ranking_nonempty.
    + now rewrite ranking_empty.
  - rewrite llama_contract_result by assumption. split; intros H.
    + now rewrite ranking_nonempty.
    + now rewrite ranking_empty.
Qed.

Lemma retrieve_joins_matches_or_reports_none_witness :
  1 <= 4
  /\ Smolagents.forward_result _ Bm25.search
       (sample_tool 4 [ada; marie]) "Ada Lovelace"
     = Smolagents.page_content (Smolagents.make_document ada)
  /\ Smolagents.forward_result _ Bm25.search
       (sample_tool 4 [ada; marie]) "Nikola Tesla"
     = NO_RELEVANT.
Proof.
  assert (Hk : 1 <= 4) by lia.
  destruct (retrieve_joins_matches_or_reports_none 4 Hk) as [Hsmol _].
  split; [exact Hk|]. split.
  - destruct (Hsmol (word_count_score Smolagents.page_content)
                (Smolagents.docs [ada; marie]) "Ada Lovelace")
      as (_ & _ & Hjoin & _).
    unfold sample_tool. rewrite Hjoin.
    + vm_compute. reflexivity.
    + exists (Smolagents.make_document ada). split.
      * left.
      * vm_compute. reflexivity.
  - destruct (Hsmol (word_count_score Smolagents.page_content)
                (Smolagents.docs [ada; marie]) "Nikola Tesla")
      as (_ & _ & _ & Hnone).
    unfold sample_tool. apply Hnone.
    intros d Hd. simpl in Hd.
    apply elem_of_cons in Hd as [->|Hd]; [vm_compute; reflexivity|].
    apply elem_of_cons in Hd as [->|Hd]; [vm_compute; reflexivity|].
    now apply not_elem_of_nil in Hd.
Defined.

(** ** The cap on the number of documents *)

Lemma forward_at_most_three (Retriever : Type)
    (invoke : Retriever -> string -> list Smolagents.Document)
    (self : Smolagents.GuestInfoRetrieverTool Retriever) (query : string) :
  exists hits,
    length hits <= 3
    /\ hits = take 3 (invoke (Smolagents.retriever _ self) query)
    /\ (Smolagents.forward_result _ invoke self query = NO_RELEVANT
        \/ Smolagents.forward_result _ invoke self query
           = str_join LFLF (map Smolagents.page_content hits)).
Proof.
  exists (take 3 (invoke (Smolagents.retriever _ self) query)).
  split; [apply firstn_le_length|]. split; [reflexivity|].
  unfold Smolagents.forward_result. rewrite forward_run. cbn [fst].
  destruct (truthy _); [now right | now left].
Qed.

Lemma ranking_all_match {Doc : Type} (sc : Bm25.Scorer Doc) (k : nat)
    (docs : list Doc) (query : string) :
  (forall d, d ∈ docs -> (0 < sc docs query d)%Q) ->
  Bm25.ranking (Bm25.build sc k docs) query ≡ₚ docs
  /\ Bm25.descending (sc docs query)
       (Bm25.ranking (Bm25.build sc k docs) query).
Proof.
  intros Hall. unfold Bm25.ranking. cbn [Bm25.scorer Bm25.corpus Bm25.build].
  split; [now apply ranked_matches_all | apply rank_descending].
Qed.

Lemma llama_at_most_cap (sc : Bm25.Scorer LlamaIndex.Document) (k : nat)
    (docs : list LlamaIndex.Document) (query : string) :
  exists hits,
    length hits <= k
    /\ hits = Bm25.search (Bm25.build sc k docs) query
    /\ (LlamaIndex.get_guest_info_result _ Bm25.search_nodes
          (LlamaIndex.module_init _ (Bm25.build sc k) docs) query
        = NO_RELEVANT
        \/ LlamaIndex.get_guest_info_result _ Bm25.search_nodes
             (LlamaIndex.module_init _ (Bm25.build sc k) docs) query
           = str_join LFLF (map LlamaIndex.text hits)).
Proof.
  exists (Bm25.search (Bm25.build sc k docs) query).
  split; [apply firstn_le_length|]. split; [reflexivity|].
  unfold LlamaIndex.get_guest_info_result. rewrite get_guest_info_run.
  cbn [fst LlamaIndex.module_init LlamaIndex.bm25_retirever].
  unfold Bm25.search_nodes. rewrite truthy_map, map_map.
  destruct (truthy _); [now right | now left].
Qed.

(** The five-document scenario over a ranking that holds the whole
    corpus: the first three are three, in descending order, and no
    document left out scores higher than one of them. *)
Lemma top_three_of_five {Doc : Type} (sc : Bm25.Scorer Doc) (k : nat)
    (docs : list Doc) (query : string) :
  length docs = 5 ->
  (forall d, d ∈ docs -> (0 < sc docs query d)%Q) ->
  length (take 3 (Bm25.ranking (Bm25.build sc k docs) query)) = 3
  /\ Bm25.ranking (Bm25.build sc k docs) query ≡ₚ docs
  /\ Bm25.descending (sc docs query)
       (Bm25.ranking (Bm25.build sc k docs) query)
  /\ forall t d,
       t ∈ take 3 (Bm25.ranking (Bm25.build sc k docs) query) ->
       d ∈ drop 3 (Bm25.ranking (Bm25.build sc k docs) query) ->
       (sc docs query d <= sc docs query t)%Q.
Proof.
  intros Hlen Hall.
  destruct (ranking_all_match sc k docs query Hall) as [Hperm Hdesc].
  split; [|split; [exact Hperm|split; [exact Hdesc|]]].
  - rewrite length_take, Hperm. lia.
  - intros t d Ht Hd. unfold Bm25.descending in Hdesc.
    rewrite <- (take_drop 3 (Bm25.ranking (Bm25.build sc k docs) query))
      in Hdesc.
    exact (StronglySorted_app_1_elem_of _ _ _ _ _ Hdesc Ht Hd).
Qed.

(** C3: with no [top_k] given the result holds at most three documents:
    [forward] of the smolagents script joins at most the first three
    documents of whatever its retriever yields, and the llama_index
    function joins what its retriever yields, at most three with the
    contract's cap of three.  Over a corpus of five documents that all
    match the query, with a contract retriever whose cap is three (any
    cap of at least three in the smolagents script), the result is
    exactly the three best texts joined by a blank line, in descending
    score order; in both scripts. *)
Theorem retrieve_returns_three_best (k : nat) (Hk : 3 <= k) :
  (forall (Retriever : Type)
          (invoke : Retriever -> string -> list Smolagents.Document)
          (self : Smolagents.GuestInfoRetrieverTool Retriever)
          (query : string),
     exists hits,
       length hits <= 3
       /\ hits = take 3 (invoke (Smolagents.retriever _ self) query)
       /\ (Smolagents.forward_result _ invoke self query = NO_RELEVANT
           \/ Smolagents.forward_result _ invoke self query
              = str_join LFLF (map Smolagents.page_content hits)))
  /\ (forall (sc : Bm25.Scorer LlamaIndex.Document)
             (docs : list LlamaIndex.Document) (query : string),
        exists hits,
          length hits <= 3
          /\ hits = Bm25.search (Bm25.build sc 3 docs) query
          /\ (LlamaIndex.get_guest_info_result _ Bm25.search_nodes
                (LlamaIndex.module_init _ (Bm25.build sc 3) docs) query
              = NO_RELEVANT
              \/ LlamaIndex.get_guest_info_result _ Bm25.search_nodes
                   (LlamaIndex.module_init _ (Bm25.build sc 3) docs) query
                 = str_join LFLF (map LlamaIndex.text hits)))
  /\ (forall (sc : Bm25.Scorer Smolagents.Document)
             (docs : list Smolagents.Document) (query : string),
        length docs = 5 ->
        (forall d, d ∈ docs -> (0 < sc docs query d)%Q) ->
        let ranked := Bm25.ranking (Bm25.build sc k docs) query in
        Smolagents.forward_result _ Bm25.search
          (Smolagents.__init__ _ (Bm25.build sc k) docs) query
        = str_join LFLF (map Smolagents.page_content (take 3 ranked))
        /\ length (take 3 ranked) = 3
        /\ ranked ≡ₚ docs
        /\ Bm25.descending (sc docs query) ranked
        /\ forall t d, t ∈ take 3 ranked -> d ∈ drop 3 ranked ->
             (sc docs query d <= sc docs query t)%Q)
  /\ (forall (sc : Bm25.Scorer LlamaIndex.Document)
             (docs : list LlamaIndex.Document) (query : string),
        length docs = 5 ->
        (forall d, d ∈ docs -> (0 < sc docs query d)%Q) ->
        let ranked := Bm25.ranking (Bm25.build sc 3 docs) query in
        LlamaIndex.get_guest_info_result _ Bm25.search_nodes
          (LlamaIndex.module_init _ (Bm25.build sc 3) docs) query
        = str_join LFLF (map LlamaIndex.text (take 3 ranked))
        /\ length (take 3 ranked) = 3
        /\ ranked ≡ₚ docs
        /\ Bm25.descending (sc docs query) ranked
        /\ forall t d, t ∈ take 3 ranked -> d ∈ drop 3 ranked ->
             (sc docs query d <= sc docs query t)%Q).
Proof.
  split; [apply forward_at_most_three|].
  split; [intros sc docs query; apply llama_at_most_cap|].
  split; intros sc docs query Hlen Hall ranked.
  - destruct (top_three_of_five sc k docs query Hlen Hall)
      as (Hthree & Hperm & Hdesc & Htop).
    fold ranked in Hthree, Hperm, Hdesc, Htop.
    split; [|now repeat split].
    rewrite smolagents_contract_result by lia. fold ranked.
    replace (3 `min` k) with 3 by lia.
    destruct ranked; [discriminate|reflexivity].
  - destruct (top_three_of_five sc 3 docs query Hlen Hall)
      as (Hthree & Hperm & Hdesc & Htop).
    fold ranked in Hthree, Hperm, Hdesc, Htop.
    split; [|now repeat split].
    rewrite llama_contract_result by lia. fold ranked.
    destruct ranked; [discriminate|reflexivity].
Qed.

Lemma retrieve_returns_three_best_witness :
  3 <= 4
  /\ Smolagents.forward_result _ Bm25.search
       (sample_tool 4 gala_guests) "gala"
     = str_join LFLF
         (map Smolagents.page_content
            (take 3 (Bm25.ranking
                       (Bm25.build (word_count_score Smolagents.page_content)
                          4 (Smolagents.docs gala_guests)) "gala")))
  /\ map (fun d => Smolagents.metadata d !! "name")
       (take 3 (Bm25.ranking
                  (Bm25.build (word_count_score Smolagents.page_content)
                     4 (Smolagents.docs gala_guests)) "gala"))
     = [Some "Bob"; Some "Di"; Some "Ann"]
  /\ LlamaIndex.get_guest_info_result _ Bm25.search_nodes
       (sample_globals 3 gala_guests) "gala"
     = str_join LFLF
         (map LlamaIndex.text (take 3 (Bm25.ranking (gala_index 3) "gala"))).
Proof.
  assert (Hk : 3 <= 4) by lia.
  destruct (retrieve_returns_three_best 4 Hk) as (_ & _ & Hsmol & Hllama).
  split; [exact Hk|].
  destruct (Hsmol (word_count_score Smolagents.page_content)
              (Smolagents.docs gala_guests) "gala") as (Hres & _).
  - reflexivity.
  - intros d Hd. simpl in Hd.
    repeat (apply elem_of_cons in Hd as [->|Hd]; [vm_compute; reflexivity|]).
    now apply not_elem_of_nil in Hd.
  - split; [exact Hres|]. split; [vm_compute; reflexivity|].
    destruct (Hllama (word_count_score LlamaIndex.text)
                (map LlamaIndex.document_of gala_guests) "gala")
      as (Hlres & _).
    + reflexivity.
    + intros d Hd. simpl in Hd.
      repeat (apply elem_of_cons in Hd as [->|Hd];
              [vm_compute; reflexivity|]).
      now apply not_elem_of_nil in Hd.
    + exact Hlres.
Defined.

(** ** The tool as an object: what [forward] reads and writes *)

Section ObjectFacts.

Variable Retriever : Type.
Variable from_documents : list Smolagents.Document -> Retriever.
Variable invoke :
  Retriever -> string -> list Smolagents.Document * Retriever.

Lemma init_sets_retriever (self : gmap string (Stateful.Value Retriever))
    (docs : list Smolagents.Document) :
  Stateful.__init__ _ from_documents self docs !! "retriever"
  = Some (Stateful.VRetriever (from_documents docs)).
Proof. unfold Stateful.__init__. apply lookup_insert_eq. Qed.

Lemma init_sets_flag (self : gmap string (Stateful.Value Retriever))
    (docs : list Smolagents.Document) :
  Stateful.__init__ _ from_documents self docs !! "is_initialized"
  = Some (Stateful.VBool false).
Proof.
  unfold Stateful.__init__.
  rewrite lookup_insert_ne by discriminate. apply lookup_insert_eq.
Qed.

(** [forward] writes no attribute but [retriever]. *)
Lemma forward_writes_retriever_only
    (self : gmap string (Stateful.Value Retriever)) (query attr : string) :
  attr <> "retriever" ->
  snd (Stateful.forward _ invoke query self) !! attr = self !! attr.
Proof.
  intros Hne. unfold Stateful.forward.
  destruct (self !! "retriever") as [[b|r]|]; [reflexivity| |reflexivity].
  destruct (invoke r query) as [results r']. cbn [snd].
  apply lookup_insert_ne. congruence.
Qed.

(** What [forward] returns depends on the [retriever] attribute
    alone. *)
Lemma forward_reads_retriever_only
    (self self' : gmap string (Stateful.Value Retriever)) (query : string) :
  self !! "retriever" = self' !! "retriever" ->
  fst (Stateful.forward _ invoke query self)
  = fst (Stateful.forward _ invoke query self').
Proof.
  intros Heq. unfold Stateful.forward. rewrite <- Heq.
  destruct (self !! "retriever") as [[b|r]|]; [reflexivity| |reflexivity].
  now destruct (invoke r query).
Qed.

Lemma forward_calls_keep_flag
    (self : gmap string (Stateful.Value Retriever)) (queries : list string) :
  snd (call_each (Stateful.forward _ invoke) queries self) !! "is_initialized"
  = self !! "is_initialized".
Proof.
  revert self. induction queries as [|q qs IH]; intros self; [reflexivity|].
  cbn [call_each]. unfold m_bind at 1.
  destruct (Stateful.forward _ invoke q self) as [b self1] eqn:Hcall.
  unfold m_bind at 1.
  destruct (call_each (Stateful.forward _ invoke) qs self1) as [bs self2]
    eqn:Hrun.
  cbn [m_ret snd].
  pose proof (IH self1) as Hrest. rewrite Hrun in Hrest. cbn [snd] in Hrest.
  rewrite Hrest.
  pose proof (forward_writes_retriever_only self q "is_initialized") as Hone.
  rewrite Hcall in Hone. cbn [snd] in Hone. apply Hone. discriminate.
Qed.

(** Over a retriever that its own calls leave unchanged, a call of
    [forward] leaves the whole instance unchanged. *)
Lemma forward_keeps_instance
    (Hro : forall r query, snd (invoke r query) = r)
    (self : gmap string (Stateful.Value Retriever)) (query : string) :
  snd (Stateful.forward _ invoke query self) = self.
Proof.
  unfold Stateful.forward.
  destruct (self !! "retriever") as [[b|r]|] eqn:Hr;
    [reflexivity| |reflexivity].
  pose proof (Hro r query) as Hsame.
  destruct (invoke r query) as [results r']. cbn [snd] in *. subst r'.
  now apply insert_id.
Qed.

Lemma forward_calls_keep_instance
    (Hro : forall r query, snd (invoke r query) = r)
    (self : gmap string (Stateful.Value Retriever)) (queries : list string) :
  snd (call_each (Stateful.forward _ invoke) queries self) = self.
Proof.
  induction queries as [|q qs IH]; [reflexivity|].
  cbn [call_each]. unfold m_bind at 1.
  pose proof (forward_keeps_instance Hro self q) as Hone.
  destruct (Stateful.forward _ invoke q self) as [b self1].
  cbn [snd] in Hone. subst self1.
  unfold m_bind at 1.
  destruct (call_each (Stateful.forward _ invoke) qs self) as [bs self2].
  cbn [snd] in IH. now subst self2.
Qed.

End ObjectFacts.

(** Over a retriever whose calls change nothing, the object view and
    the record view of the tool return the same string. *)
Lemma object_forward_is_record_forward (Retriever : Type)
    (from_documents : list Smolagents.Document -> Retriever)
    (invoke : Retriever -> string -> list Smolagents.Document)
    (self : gmap string (Stateful.Value Retriever))
    (docs : list Smolagents.Document) (query : string) :
  fst (Stateful.forward _ (Stateful.read_only invoke) query
         (Stateful.__init__ _ from_documents self docs))
  = Stateful.Returns
      (Smolagents.forward_result _ invoke
         (Smolagents.__init__ _ from_documents docs) query).
Proof.
  unfold Stateful.forward. rewrite init_sets_retriever.
  unfold Stateful.read_only, Smolagents.forward_result.
  rewrite forward_run. reflexivity.
Qed.

(** ** Lifecycle *)

(** C4 as stated fails: [forward] on the instance on which [__init__]
    has not run ends with [AttributeError] for the missing [retriever]
    attribute, not with [NotInitializedError]. *)
Lemma forward_before_init_raises_attribute_error :
  Stateful.forward _ (Stateful.read_only Bm25.search) "Ada Lovelace"
    (Stateful.fresh (Bm25.Index Smolagents.Document))
  = (Stateful.Raises (Stateful.AttributeError "retriever"),
     Stateful.fresh (Bm25.Index Smolagents.Document))
  /\ fst (Stateful.forward _ (Stateful.read_only Bm25.search) "Ada Lovelace"
            (Stateful.fresh (Bm25.Index Smolagents.Document)))
     <> Stateful.Raises (Stateful.Declared NotInitializedError).
Proof. split; [reflexivity | discriminate]. Qed.

(** C4, amended: an instance is either one on which [__init__] has not
    run or one on which it has.  On an instance without the [retriever]
    attribute [forward] fails with [AttributeError], returns nothing and
    leaves the instance as it was; once [__init__] has run [forward]
    returns a string, the sentinel or a join of at most three retrieved
    texts; and no call of [forward] ends with [NotInitializedError]. *)
Theorem forward_fails_only_without_retriever (Retriever : Type)
    (from_documents : list Smolagents.Document -> Retriever)
    (invoke : Retriever -> string -> list Smolagents.Document * Retriever) :
  (forall (self : gmap string (Stateful.Value Retriever)) query,
     self !! "retriever" = None ->
     Stateful.forward _ invoke query self
     = (Stateful.Raises (Stateful.AttributeError "retriever"), self))
  /\ (forall (self : gmap string (Stateful.Value Retriever)) docs query,
        exists s,
          fst (Stateful.forward _ invoke query
                 (Stateful.__init__ _ from_documents self docs))
          = Stateful.Returns s
          /\ (s = NO_RELEVANT
              \/ s = str_join LFLF
                       (map Smolagents.page_content
                          (take 3 (fst (invoke (from_documents docs)
                                          query))))))
  /\ (forall (self : gmap string (Stateful.Value Retriever)) query,
        fst (Stateful.forward _ invoke query self)
        <> Stateful.Raises (Stateful.Declared NotInitializedError)).
Proof.
  split; [|split].
  - intros self query Hnone. unfold Stateful.forward. now rewrite Hnone.
  - intros self docs query. unfold Stateful.forward.
    rewrite init_sets_retriever.
    destruct (invoke (from_documents docs) query) as [results r'].
    cbn [fst]. eexists. split; [reflexivity|].
    destruct (truthy results); [now right | now left].
  - intros self query. unfold Stateful.forward.
    destruct (self !! "retriever") as [[b|r]|]; try discriminate.
    now destruct (invoke r query).
Qed.

Lemma forward_fails_only_without_retriever_witness :
  Stateful.fresh (Bm25.Index Smolagents.Document) !! "retriever" = None
  /\ Stateful.forward _ (Stateful.read_only Bm25.search) "Nikola Tesla"
       (Stateful.fresh (Bm25.Index Smolagents.Document))
     = (Stateful.Raises (Stateful.AttributeError "retriever"),
        Stateful.fresh (Bm25.Index Smolagents.Document)).
Proof.
  split; [reflexivity|].
  apply (proj1 (forward_fails_only_without_retriever _
                  (Bm25.build (word_count_score Smolagents.page_content) 4)
                  (Stateful.read_only Bm25.search))).
  reflexivity.
Defined.

(** ** The empty corpus *)

Lemma ranking_of_empty_corpus {Doc : Type} (sc : Bm25.Scorer Doc) (k : nat)
    (query : string) :
  Bm25.search (Bm25.build sc k []) query = [].
Proof. unfold Bm25.search. cbn. now destruct k. Qed.

(** C6: no records give an empty corpus in both scripts (no error);
    the tool is built over it, with a retriever that follows the
    retrieval contract; and every call on that tool, whatever calls came
    before, returns the sentinel string. *)
Theorem empty_corpus_always_reports_none
    (sc_s : Bm25.Scorer Smolagents.Document)
    (sc_l : Bm25.Scorer LlamaIndex.Document)
    (k : nat) (earlier : list string) (query : string) :
  Smolagents.docs [] = []
  /\ LlamaIndex.docs [] = Some []
  /\ Smolagents.forward_outcome _ Bm25.search
       (snd (call_each (Smolagents.forward _ Bm25.search) earlier
               (Smolagents.__init__ _ (Bm25.build sc_s k)
                  (Smolagents.docs []))))
       query
     = Returned NO_RELEVANT
  /\ LlamaIndex.get_guest_info_outcome _ Bm25.search_nodes
       (snd (call_each
               (LlamaIndex.get_guest_info_retirever _ Bm25.search_nodes)
               earlier
               (LlamaIndex.module_init _ (Bm25.build sc_l k) [])))
       query
     = Returned NO_RELEVANT.
Proof.
  split; [reflexivity|]. split; [reflexivity|]. split.
  - rewrite forward_calls_keep_self.
    unfold Smolagents.forward_outcome, Smolagents.forward_result.
    rewrite forward_run.
    cbn [fst Smolagents.__init__ Smolagents.retriever Smolagents.docs map].
    now rewrite ranking_of_empty_corpus.
  - rewrite get_guest_info_calls_keep_globals.
    unfold LlamaIndex.get_guest_info_outcome,
      LlamaIndex.get_guest_info_result.
    rewrite get_guest_info_run.
    cbn [fst LlamaIndex.module_init LlamaIndex.bm25_retirever].
    unfold Bm25.search_nodes. now rewrite ranking_of_empty_corpus.
Qed.

(** ** Repeated calls *)

Lemma get_guest_info_keeps_globals (Retriever : Type)
    (retrieve :
       Retriever -> string -> list LlamaIndex.NodeWithScore * Retriever)
    (Hro : forall r query, snd (retrieve r query) = r)
    (g : LlamaIndex.Globals Retriever) (query : string) :
  snd (Stateful.get_guest_info_retirever _ retrieve query g) = g.
Proof.
  unfold Stateful.get_guest_info_retirever.
  pose proof (Hro (LlamaIndex.bm25_retirever _ g) query) as Hsame.
  destruct (retrieve (LlamaIndex.bm25_retirever _ g) query) as [results r'].
  cbn [snd] in *. subst r'. now destruct g.
Qed.

Lemma get_guest_info_calls_keep_globals_ro (Retriever : Type)
    (retrieve :
       Retriever -> string -> list LlamaIndex.NodeWithScore * Retriever)
    (Hro : forall r query, snd (retrieve r query) = r)
    (g : LlamaIndex.Globals Retriever) (queries : list string) :
  snd (call_each (Stateful.get_guest_info_retirever _ retrieve) queries g)
  = g.
Proof.
  induction queries as [|q qs IH]; [reflexivity|].
  cbn [call_each]. unfold m_bind at 1.
  pose proof (get_guest_info_keeps_globals _ retrieve Hro g q) as Hone.
  destruct (Stateful.get_guest_info_retirever _ retrieve q g) as [b g1].
  cbn [snd] in Hone. subst g1.
  unfold m_bind at 1.
  destruct (call_each (Stateful.get_guest_info_retirever _ retrieve) qs g)
    as [bs g2].
  cbn [snd] in IH. now subst g2.
Qed.

(** The tool code does not make repetition hold on its own: over a
    retriever that changes with each call, the same query asked twice
    gets two different answers. *)
Lemma forward_follows_a_changing_retriever :
  fst (call_each (Stateful.forward _ counting_invoke) ["gala"; "gala"]
         (<["retriever" := Stateful.VRetriever 0]> (Stateful.fresh nat)))
  = [Stateful.Returns NO_RELEVANT;
     Stateful.Returns
       (Smolagents.page_content (Smolagents.make_document ada))].
Proof. reflexivity. Qed.

(** C7: over an index that a query leaves unchanged, a call of the
    retrieval function leaves the tool (in the llama_index script, the
    module globals) exactly as it was, the retriever included, so the
    same query asked twice in a row, or again after any other queries,
    gets the same answer; in both scripts.  The tool code keeps no
    state of its own between calls. *)
Theorem retrieve_repeats_over_read_only_index (Retriever : Type)
    (invoke : Retriever -> string -> list Smolagents.Document * Retriever)
    (LRetriever : Type)
    (retrieve :
       LRetriever -> string -> list LlamaIndex.NodeWithScore * LRetriever)
    (Hro : forall r query, snd (invoke r query) = r)
    (Hlro : forall r query, snd (retrieve r query) = r) :
  (forall (self : gmap string (Stateful.Value Retriever))
          (query : string) (between : list string),
     snd (Stateful.forward _ invoke query self) = self
     /\ call_each (Stateful.forward _ invoke) [query; query] self
        = ([fst (Stateful.forward _ invoke query self);
            fst (Stateful.forward _ invoke query self)], self)
     /\ fst (Stateful.forward _ invoke query
               (snd (call_each (Stateful.forward _ invoke) between
                       (snd (Stateful.forward _ invoke query self)))))
        = fst (Stateful.forward _ invoke query self))
  /\ (forall (g : LlamaIndex.Globals LRetriever)
             (query : string) (between : list string),
        snd (Stateful.get_guest_info_retirever _ retrieve query g) = g
        /\ call_each (Stateful.get_guest_info_retirever _ retrieve)
             [query; query] g
           = ([fst (Stateful.get_guest_info_retirever _ retrieve query g);
               fst (Stateful.get_guest_info_retirever _ retrieve query g)],
              g)
        /\ fst (Stateful.get_guest_info_retirever _ retrieve query
                  (snd (call_each
                          (Stateful.get_guest_info_retirever _ retrieve)
                          between
                          (snd (Stateful.get_guest_info_retirever _ retrieve
                                  query g)))))
           = fst (Stateful.get_guest_info_retirever _ retrieve query g)).
Proof.
  split.
  - intros self query between.
    pose proof (forward_keeps_instance _ invoke Hro self query) as Hself.
    split; [exact Hself|]. split.
    + cbn [call_each]. unfold m_bind, m_ret.
      destruct (Stateful.forward _ invoke query self) as [out self1] eqn:Hc.
      cbn [snd fst] in *. subst self1. now rewrite Hc.
    + now rewrite Hself, forward_calls_keep_instance.
  - intros g query between.
    pose proof (get_guest_info_keeps_globals _ retrieve Hlro g query) as Hg.
    split; [exact Hg|]. split.
    + cbn [call_each]. unfold m_bind, m_ret.
      destruct (Stateful.get_guest_info_retirever _ retrieve query g)
        as [out g1] eqn:Hc.
      cbn [snd fst] in *. subst g1. now rewrite Hc.
    + now rewrite Hg, get_guest_info_calls_keep_globals_ro.
Qed.

Lemma retrieve_repeats_over_read_only_index_witness :
  (forall (r : Bm25.Index Smolagents.Document) query,
     snd (Stateful.read_only Bm25.search r query) = r)
  /\ call_each (Stateful.forward _ (Stateful.read_only Bm25.search))
       ["Ada Lovelace"; "Ada Lovelace"] sample_instance
     = ([fst (Stateful.forward _ (Stateful.read_only Bm25.search)
                "Ada Lovelace" sample_instance);
         fst (Stateful.forward _ (Stateful.read_only Bm25.search)
                "Ada Lovelace" sample_instance)],
        sample_instance).
Proof.
  assert (Hro : forall (r : Bm25.Index Smolagents.Document) query,
            snd (Stateful.read_only Bm25.search r query) = r)
    by reflexivity.
  assert (Hlro : forall (r : Bm25.Index LlamaIndex.Document) query,
            snd (Stateful.read_only Bm25.search_nodes r query) = r)
    by reflexivity.
  split; [exact Hro|].
  destruct (retrieve_repeats_over_read_only_index _
              (Stateful.read_only Bm25.search) _
              (Stateful.read_only Bm25.search_nodes) Hro Hlro)
    as [Hsmol _].
  exact (proj1 (proj2 (Hsmol sample_instance "Ada Lovelace" []))).
Defined.

(** ** The description string *)

(** C8 as stated fails: the smolagents description is not the stated
    string, it has no closing full stop. *)
Lemma smolagents_description_has_no_full_stop :
  Smolagents.description <> stated_description
  /\ String.length stated_description
     = S (String.length Smolagents.description).
Proof. split; [discriminate | reflexivity]. Qed.

(** C8, amended: the smolagents tool publishes exactly
    ["Retrieves information about a guest by name or relation"], the
    stated string without its closing full stop.  The llama_index script
    declares no description: its tool is built from the function, whose
    docstring reads ["Retrieves detailed information about gala guests
    based on their name or relation"], a different sentence. *)
Theorem published_descriptions :
  Smolagents.description
    = "Retrieves information about a guest by name or relation"
  /\ Smolagents.description +:+ "." = stated_description
  /\ LlamaIndex.get_guest_info_retirever_doc
     = "Retrieves detailed information about gala guests based on their name or relation"
  /\ LlamaIndex.get_guest_info_retirever_doc <> stated_description
  /\ LlamaIndex.get_guest_info_retirever_doc <> Smolagents.description.
Proof. repeat split; try reflexivity; discriminate. Qed.

(** ** The [is_initialized] attribute *)

(** On the record view of the tool: [__init__] sets the flag to
    [False], [forward] keeps it, and the returned string does not
    depend on it. *)
Lemma is_initialized_stays_false (Retriever : Type)
    (from_documents : list Smolagents.Document -> Retriever)
    (invoke : Retriever -> string -> list Smolagents.Document)
    (docs : list Smolagents.Document) (queries : list string) :
  Smolagents.is_initialized _ (Smolagents.__init__ _ from_documents docs)
  = false
  /\ Smolagents.is_initialized _
       (snd (call_each (Smolagents.forward _ invoke) queries
               (Smolagents.__init__ _ from_documents docs)))
     = false
  /\ (forall self query,
        Smolagents.is_initialized _
          (Smolagents.forward_self _ invoke self query)
        = Smolagents.is_initialized _ self)
  /\ (forall (flag flag' : bool) (r : Retriever) query,
        Smolagents.forward_result _ invoke (Smolagents.mkTool _ flag r) query
        = Smolagents.forward_result _ invoke
            (Smolagents.mkTool _ flag' r) query).
Proof.
  split; [reflexivity|]. split; [|split].
  - now rewrite forward_calls_keep_self.
  - intros self query. unfold Smolagents.forward_self.
    now rewrite forward_run.
  - intros flag flag' r query. unfold Smolagents.forward_result.
    now rewrite !forward_run.
Qed.

(** C9 as stated fails: the agent calls the tool through the
    [__call__] it inherits from [smolagents.Tool], and that call sets
    [is_initialized] to [True] on the instance [__init__] built. *)
Lemma inherited_call_sets_is_initialized :
  sample_instance !! "is_initialized" = Some (Stateful.VBool false)
  /\ snd (Stateful.__call__ _ (Stateful.read_only Bm25.search)
            "Ada Lovelace" sample_instance) !! "is_initialized"
     = Some (Stateful.VBool true).
Proof. split; vm_compute; reflexivity. Qed.

(** C9, amended: [__init__] sets [is_initialized] to [False], and the
    two operations the class defines never set, read or check it
    afterwards: [forward] leaves the attribute as it finds it, so it is
    still [False] after any run of [forward] calls, and what [forward]
    returns is the same whatever the attribute holds and even when it is
    missing. *)
Theorem own_operations_leave_is_initialized (Retriever : Type)
    (from_documents : list Smolagents.Document -> Retriever)
    (invoke : Retriever -> string -> list Smolagents.Document * Retriever) :
  (forall (self : gmap string (Stateful.Value Retriever)) docs,
     Stateful.__init__ _ from_documents self docs !! "is_initialized"
     = Some (Stateful.VBool false))
  /\ (forall (self : gmap string (Stateful.Value Retriever)) query,
        snd (Stateful.forward _ invoke query self) !! "is_initialized"
        = self !! "is_initialized")
  /\ (forall (self : gmap string (Stateful.Value Retriever)) docs queries,
        snd (call_each (Stateful.forward _ invoke) queries
               (Stateful.__init__ _ from_documents self docs))
          !! "is_initialized"
        = Some (Stateful.VBool false))
  /\ (forall (self : gmap string (Stateful.Value Retriever)) v query,
        fst (Stateful.forward _ invoke query (<["is_initialized" := v]> self))
        = fst (Stateful.forward _ invoke query self))
  /\ (forall (self : gmap string (Stateful.Value Retriever)) query,
        fst (Stateful.forward _ invoke query (delete "is_initialized" self))
        = fst (Stateful.forward _ invoke query self)).
Proof.
  split; [intros; apply init_sets_flag|].
  split; [intros; now apply forward_writes_retriever_only|].
  split; [intros; rewrite forward_calls_keep_flag; apply init_sets_flag|].
  split; intros; apply forward_reads_retriever_only.
  - now apply lookup_insert_ne.
  - now apply lookup_delete_ne.
Qed.

(** ** Provenance of the returned text *)

(** C10: when the retriever yields only documents of the corpus the tool
    was built over, the result is either the sentinel or the join, with
    a blank line, of the texts of a non-empty list of corpus documents;
    in both scripts. *)
Theorem results_are_corpus_texts (Retriever : Type)
    (from_documents : list Smolagents.Document -> Retriever)
    (invoke : Retriever -> string -> list Smolagents.Document)
    (docs : list Smolagents.Document)
    (LRetriever : Type)
    (from_defaults : list LlamaIndex.Document -> LRetriever)
    (retrieve : LRetriever -> string -> list LlamaIndex.NodeWithScore)
    (ldocs : list LlamaIndex.Document)
    (query : string)
    (Hsub : invoke (from_documents docs) query ⊆ docs)
    (Hlsub : map LlamaIndex.node (retrieve (from_defaults ldocs) query)
             ⊆ ldocs) :
  (Smolagents.forward_result _ invoke
     (Smolagents.__init__ _ from_documents docs) query = NO_RELEVANT
   \/ exists hits,
        hits <> [] /\ hits ⊆ docs
        /\ Smolagents.forward_result _ invoke
             (Smolagents.__init__ _ from_documents docs) query
           = str_join LFLF (map Smolagents.page_content hits))
  /\ (LlamaIndex.get_guest_info_result _ retrieve
        (LlamaIndex.module_init _ from_defaults ldocs) query = NO_RELEVANT
      \/ exists hits,
           hits <> [] /\ hits ⊆ ldocs
           /\ LlamaIndex.get_guest_info_result _ retrieve
                (LlamaIndex.module_init _ from_defaults ldocs) query
              = str_join LFLF (map LlamaIndex.text hits)).
Proof.
  split.
  - unfold Smolagents.forward_result. rewrite forward_run.
    cbn [fst Smolagents.__init__ Smolagents.retriever].
    destruct (invoke (from_documents docs) query) as [|d ds] eqn:Hres;
      [now left|].
    right. exists (take 3 (d :: ds)). split; [discriminate|].
    split; [|reflexivity].
    intros x Hx. apply Hsub. now apply subseteq_take in Hx.
  - unfold LlamaIndex.get_guest_info_result. rewrite get_guest_info_run.
    cbn [fst LlamaIndex.module_init LlamaIndex.bm25_retirever].
    destruct (retrieve (from_defaults ldocs) query) as [|n ns] eqn:Hres;
      [now left|].
    right. exists (map LlamaIndex.node (n :: ns)).
    split; [discriminate|]. split; [exact Hlsub|].
    cbn [truthy]. now rewrite map_map.
Qed.

Lemma results_are_corpus_texts_witness :
  Bm25.search
    (Bm25.build (word_count_score Smolagents.page_content) 4
       (Smolagents.docs [ada; marie])) "Ada Lovelace"
  ⊆ Smolagents.docs [ada; marie]
  /\ (Smolagents.forward_result _ Bm25.search
        (sample_tool 4 [ada; marie]) "Ada Lovelace" = NO_RELEVANT
      \/ exists hits,
           hits <> [] /\ hits ⊆ Smolagents.docs [ada; marie]
           /\ Smolagents.forward_result _ Bm25.search
                (sample_tool 4 [ada; marie]) "Ada Lovelace"
              = str_join LFLF (map Smolagents.page_content hits)).
Proof.
  assert (Hsub : Bm25.search
                   (Bm25.build (word_count_score Smolagents.page_content) 4
                      (Smolagents.docs [ada; marie])) "Ada Lovelace"
                 ⊆ Smolagents.docs [ada; marie]).
  { intros d Hd. vm_compute in Hd.
    apply elem_of_cons in Hd as [->|Hd]; [left|].
    now apply not_elem_of_nil in Hd. }
  split; [exact Hsub|].
  refine (proj1 (results_are_corpus_texts _
            (Bm25.build (word_count_score Smolagents.page_content) 4)
            Bm25.search (Smolagents.docs [ada; marie]) _
            (Bm25.build (word_count_score LlamaIndex.text) 4)
            Bm25.search_nodes (map LlamaIndex.document_of [ada; marie])
            "Ada Lovelace" Hsub _)).
  intros d Hd. vm_compute in Hd.
  apply elem_of_cons in Hd as [->|Hd]; [left|].
  now apply not_elem_of_nil in Hd.
Defined.

(** ** Further properties of the corpus texts *)

Lemma str_append_cons (x : ascii) (a b : string) :
  String x a +:+ b = String x (a +:+ b).
Proof. reflexivity. Qed.

Lemma str_append_nil_l (b : string) : "" +:+ b = b.
Proof. reflexivity. Qed.

Lemma str_append_assoc (a b c : string) :
  (a +:+ b) +:+ c = a +:+ b +:+ c.
Proof.
  induction a as [|x a IH]; [reflexivity|].
  now rewrite !str_append_cons, IH.
Qed.

Lemma str_append_nil_r (a : string) : a +:+ "" = a.
Proof.
  induction a as [|x a IH]; [reflexivity|].
  now rewrite str_append_cons, IH.
Qed.

Lemma newline_free_app (a b : string) :
  newline_free (a +:+ b) = newline_free a && newline_free b.
Proof.
  induction a as [|x a IH]; [reflexivity|].
  rewrite str_append_cons. cbn [newline_free].
  now rewrite IH, andb_assoc.
Qed.

Lemma newline_free_cons_LF (a : string) :
  newline_free (String (ascii_of_nat 10) a) = false.
Proof. reflexivity. Qed.

(** Two texts that agree are cut at their first line break into equal
    pieces. *)
Lemma split_at_newline (a a' b b' : string) :
  newline_free a = true -> newline_free a' = true ->
  a +:+ LF +:+ b = a' +:+ LF +:+ b' -> a = a' /\ b = b'.
Proof.
  unfold LF. revert a'.
  induction a as [|c a IH]; intros [|c' a'] Ha Ha' Heq;
    rewrite ?str_append_cons, ?str_append_nil_l in Heq.
  - injection Heq as ->. now split.
  - exfalso. injection Heq as Hc _. subst c'.
    rewrite newline_free_cons_LF in Ha'. discriminate.
  - exfalso. injection Heq as Hc _. subst c.
    rewrite newline_free_cons_LF in Ha. discriminate.
  - injection Heq as -> Heq.
    cbn [newline_free] in Ha, Ha'.
    apply andb_true_iff in Ha as [_ Ha], Ha' as [_ Ha'].
    destruct (IH a' Ha Ha') as [-> ->]; [|now split].
    now rewrite ?str_append_cons, ?str_append_nil_l.
Qed.

Lemma four_line_text_inj (g g' : GuestRecord) :
  single_line_fields g = true -> single_line_fields g' = true ->
  four_line_text g = four_line_text g' -> g = g'.
Proof.
  unfold single_line_fields, four_line_text. cbn [str_join].
  destruct g as [n r d e], g' as [n' r' d' e']. cbn [name relation description email].
  rewrite !andb_true_iff. intros [[Hn Hr] Hd] [[Hn' Hr'] Hd'] Heq.
  apply split_at_newline in Heq as [H1 Heq];
    [|rewrite newline_free_app; now rewrite ?Hn, ?Hn'..].
  apply split_at_newline in Heq as [H2 Heq];
    [|rewrite newline_free_app; now rewrite ?Hr, ?Hr'..].
  apply split_at_newline in Heq as [H3 H4];
    [|rewrite newline_free_app; now rewrite ?Hd, ?Hd'..].
  rewrite ?str_append_cons, ?str_append_nil_l in H1.
  rewrite ?str_append_cons, ?str_append_nil_l in H2.
  rewrite ?str_append_cons, ?str_append_nil_l in H3.
  rewrite ?str_append_cons, ?str_append_nil_l in H4.
  congruence.
Qed.

(** X1: for every dataset the llama_index comprehension completes and
    the text of each document, in row order, is the four-line text of
    its row. *)
Theorem llama_docs_have_four_line_texts (records : list GuestRecord) :
  exists l,
    LlamaIndex.docs records = Some l
    /\ map LlamaIndex.text l = map four_line_text records.
Proof.
  exists (map LlamaIndex.document_of records). split.
  - apply llama_docs_total.
  - rewrite map_map. reflexivity.
Qed.

(** X2: at every row the two scripts build documents with the same
    metadata, and the smolagents text is the llama_index text with the
    line break in front of ["Email: "] left out; the two texts are never
    equal. *)
Theorem smolagents_text_is_llama_text_less_a_newline
    (records : list GuestRecord) (i : nat) (g : GuestRecord) :
  records !! i = Some g ->
  exists sd l ld pre,
    Smolagents.docs records !! i = Some sd
    /\ LlamaIndex.docs records = Some l
    /\ l !! i = Some ld
    /\ Smolagents.metadata sd = LlamaIndex.metadata ld
    /\ LlamaIndex.text ld = pre +:+ LF +:+ "Email: " +:+ email g
    /\ Smolagents.page_content sd = pre +:+ "Email: " +:+ email g
    /\ Smolagents.page_content sd <> LlamaIndex.text ld.
Proof.
  intros Hi.
  exists (Smolagents.make_document g), (map LlamaIndex.document_of records),
    (LlamaIndex.document_of g),
    ("Name: " +:+ name g +:+ LF +:+ "Relation: " +:+ relation g +:+ LF
     +:+ "Description: " +:+ description g).
  split; [now rewrite smolagents_docs_lookup, Hi|].
  split; [apply llama_docs_total|].
  split; [now rewrite list_lookup_fmap, Hi|].
  split; [reflexivity|].
  split; [|split].
  - cbn [LlamaIndex.text LlamaIndex.document_of str_join].
    now rewrite !str_append_assoc.
  - cbn [Smolagents.page_content Smolagents.make_document str_join].
    now rewrite !str_append_assoc.
  - intros Heq. pose proof (smolagents_text_one_short g) as Hlen.
    rewrite Heq in Hlen. change (LlamaIndex.text (LlamaIndex.document_of g))
      with (four_line_text g) in Hlen. lia.
Qed.

Lemma smolagents_text_is_llama_text_less_a_newline_witness :
  [ada; marie] !! 1 = Some marie
  /\ exists sd l ld pre,
       Smolagents.docs [ada; marie] !! 1 = Some sd
       /\ LlamaIndex.docs [ada; marie] = Some l
       /\ l !! 1 = Some ld
       /\ Smolagents.metadata sd = LlamaIndex.metadata ld
       /\ LlamaIndex.text ld = pre +:+ LF +:+ "Email: " +:+ email marie
       /\ Smolagents.page_content sd = pre +:+ "Email: " +:+ email marie
       /\ Smolagents.page_content sd <> LlamaIndex.text ld.
Proof.
  split; [reflexivity|].
  apply (smolagents_text_is_llama_text_less_a_newline [ada; marie] 1 marie).
  reflexivity.
Defined.

(** X3: when the rows are pairwise distinct and no name, relation or
    description holds a line break, the llama_index corpus holds no two
    documents with the same text. *)
Theorem llama_texts_are_distinct (records : list GuestRecord) :
  NoDup records ->
  Forall (fun g => single_line_fields g = true) records ->
  exists l,
    LlamaIndex.docs records = Some l /\ NoDup (map LlamaIndex.text l).
Proof.
  intros Hnd Hall. exists (map LlamaIndex.document_of records).
  split; [apply llama_docs_total|].
  rewrite map_map.
  apply (NoDup_fmap_2_strong
           (fun g => LlamaIndex.text (LlamaIndex.document_of g)));
    [|assumption].
  intros g g' Hg Hg' Heq. rewrite Forall_forall in Hall.
  apply four_line_text_inj; [now apply Hall | now apply Hall | exact Heq].
Qed.

Lemma llama_texts_are_distinct_witness :
  NoDup [ada; marie]
  /\ Forall (fun g => single_line_fields g = true) [ada; marie]
  /\ exists l,
       LlamaIndex.docs [ada; marie] = Some l
       /\ NoDup (map LlamaIndex.text l).
Proof.
  assert (Hnd : NoDup [ada; marie]).
  { constructor.
    - intros Hin. apply list_elem_of_singleton in Hin. discriminate.
    - constructor; [apply not_elem_of_nil | constructor]. }
  assert (Hall : Forall (fun g => single_line_fields g = true) [ada; marie])
    by (repeat constructor).
  split; [exact Hnd|]. split; [exact Hall|].
  exact (llama_texts_are_distinct [ada; marie] Hnd Hall).
Defined.

(** X4: in the smolagents script distinct rows can yield the same
    document.  Whatever the five strings, the row whose description ends
    with ["Email: " x] and the row whose email starts with [x "Email: "]
    are different rows with one and the same document. *)
Theorem smolagents_documents_collide (n r d x e : string) :
  Smolagents.make_document (mkGuest n r (d +:+ "Email: " +:+ x) e)
  = Smolagents.make_document (mkGuest n r d (x +:+ "Email: " +:+ e))
  /\ mkGuest n r (d +:+ "Email: " +:+ x) e
     <> mkGuest n r d (x +:+ "Email: " +:+ e).
Proof.
  split.
  - unfold Smolagents.make_document. cbn [name relation description email].
    f_equal. cbn [str_join]. now rewrite !str_append_assoc.
  - intros Heq. injection Heq as Hd _.
    apply (f_equal String.length) in Hd.
    rewrite !length_append in Hd. cbn in Hd. lia.
Qed.

(** ** Further properties of the tool functions *)

Lemma str_join_head (sep : string) (a b : ascii) (r : string)
    (ts : list string) :
  exists r', str_join sep (String a (String b r) :: ts)
             = String a (String b r').
Proof.
  destruct ts as [|t ts]; cbn [str_join].
  - now exists r.
  - rewrite !str_append_cons. now eexists.
Qed.

Lemma smolagents_text_head (records : list GuestRecord)
    (d : Smolagents.Document) :
  d ∈ Smolagents.docs records ->
  exists r, Smolagents.page_content d = String "N" (String "a" r).
Proof.
  unfold Smolagents.docs. intros Hd.
  apply list_elem_of_fmap in Hd as [g [-> _]].
  cbn [Smolagents.page_content Smolagents.make_document str_join].
  rewrite !str_append_cons. now eexists.
Qed.

Lemma llama_text_head (records : list GuestRecord)
    (l : list LlamaIndex.Document) (d : LlamaIndex.Document) :
  LlamaIndex.docs records = Some l -> d ∈ l ->
  exists r, LlamaIndex.text d = String "N" (String "a" r).
Proof.
  rewrite llama_docs_total. intros [= <-] Hd.
  apply list_elem_of_fmap in Hd as [g [-> _]].
  cbn [LlamaIndex.text LlamaIndex.document_of str_join].
  rewrite !str_append_cons. now eexists.
Qed.

(** X5: over a corpus built by the script, and a retriever that yields
    only documents of that corpus, the sentinel string is returned
    exactly when the retriever yields nothing: no join of document texts
    can be mistaken for it.  In both scripts. *)
Theorem sentinel_means_nothing_retrieved (Retriever : Type)
    (from_documents : list Smolagents.Document -> Retriever)
    (invoke : Retriever -> string -> list Smolagents.Document)
    (LRetriever : Type)
    (from_defaults : list LlamaIndex.Document -> LRetriever)
    (retrieve : LRetriever -> string -> list LlamaIndex.NodeWithScore)
    (records : list GuestRecord) (ldocs : list LlamaIndex.Document)
    (query : string)
    (Hdocs : LlamaIndex.docs records = Some ldocs)
    (Hsub : invoke (from_documents (Smolagents.docs records)) query
            ⊆ Smolagents.docs records)
    (Hlsub : map LlamaIndex.node (retrieve (from_defaults ldocs) query)
             ⊆ ldocs) :
  (Smolagents.forward_result _ invoke
     (Smolagents.__init__ _ from_documents (Smolagents.docs records)) query
   = NO_RELEVANT
   <-> invoke (from_documents (Smolagents.docs records)) query = [])
  /\ (LlamaIndex.get_guest_info_result _ retrieve
        (LlamaIndex.module_init _ from_defaults ldocs) query
      = NO_RELEVANT
      <-> retrieve (from_defaults ldocs) query = []).
Proof.
  split.
  - unfold Smolagents.forward_result. rewrite forward_run.
    cbn [fst Smolagents.__init__ Smolagents.retriever].
    destruct (invoke _ query) as [|d ds] eqn:Hres; [easy|].
    split; [|discriminate]. intros Heq. exfalso.
    destruct (smolagents_text_head records d) as [r Hr];
      [apply Hsub; left|].
    cbn [truthy take map] in Heq. rewrite Hr in Heq.
    destruct (str_join_head LFLF "N" "a" r
                (map Smolagents.page_content (take 2 ds))) as [r' Hr'].
    rewrite Hr' in Heq. discriminate.
  - unfold LlamaIndex.get_guest_info_result. rewrite get_guest_info_run.
    cbn [fst LlamaIndex.module_init LlamaIndex.bm25_retirever].
    destruct (retrieve _ query) as [|n ns] eqn:Hres; [easy|].
    split; [|discriminate]. intros Heq. exfalso.
    destruct (llama_text_head records ldocs (LlamaIndex.node n) Hdocs)
      as [r Hr]; [apply Hlsub; left|].
    cbn [truthy map] in Heq. unfold LlamaIndex.node_text at 1 in Heq.
    rewrite Hr in Heq.
    destruct (str_join_head LFLF "N" "a" r
                (map LlamaIndex.node_text ns)) as [r' Hr'].
    rewrite Hr' in Heq. discriminate.
Qed.

Lemma sentinel_means_nothing_retrieved_witness :
  LlamaIndex.docs [ada; marie]
  = Some (map LlamaIndex.document_of [ada; marie])
  /\ Bm25.search
       (Bm25.build (word_count_score Smolagents.page_content) 4
          (Smolagents.docs [ada; marie])) "Ada Lovelace"
     ⊆ Smolagents.docs [ada; marie]
  /\ (Smolagents.forward_result _ Bm25.search
        (sample_tool 4 [ada; marie]) "Ada Lovelace" = NO_RELEVANT
      <-> Bm25.search
            (Bm25.build (word_count_score Smolagents.page_content) 4
               (Smolagents.docs [ada; marie])) "Ada Lovelace" = []).
Proof.
  assert (Hsub : Bm25.search
                   (Bm25.build (word_count_score Smolagents.page_content) 4
                      (Smolagents.docs [ada; marie])) "Ada Lovelace"
                 ⊆ Smolagents.docs [ada; marie]).
  { intros d Hd. vm_compute in Hd.
    apply elem_of_cons in Hd as [->|Hd]; [left|].
    now apply not_elem_of_nil in Hd. }
  split; [reflexivity|]. split; [exact Hsub|].
  refine (proj1 (sentinel_means_nothing_retrieved _
            (Bm25.build (word_count_score Smolagents.page_content) 4)
            Bm25.search _
            (Bm25.build (word_count_score LlamaIndex.text) 4)
            Bm25.search_nodes [ada; marie]
            (map LlamaIndex.document_of [ada; marie])
            "Ada Lovelace" _ Hsub _)).
  - reflexivity.
  - intros d Hd. vm_compute in Hd.
    apply elem_of_cons in Hd as [->|Hd]; [left|].
    now apply not_elem_of_nil in Hd.
Defined.

Lemma str_join_occurs (sep x : string) (l : list string) :
  x ∈ l -> occurs_in x (str_join sep l).
Proof.
  induction l as [|y l IH]; intros Hx; [now apply not_elem_of_nil in Hx|].
  destruct l as [|z l].
  - apply list_elem_of_singleton in Hx as ->.
    exists "", "". cbn [str_join].
    now rewrite str_append_nil_l, str_append_nil_r.
  - apply elem_of_cons in Hx as [->|Hx].
    + exists "", (sep +:+ str_join sep (z :: l)). reflexivity.
    + destruct (IH Hx) as (pre & post & Heq).
      exists (y +:+ sep +:+ pre), post.
      change (str_join sep (y :: z :: l))
        with (y +:+ sep +:+ str_join sep (z :: l)).
      now rewrite Heq, !str_append_assoc.
Qed.

(** X6: for any retriever, the string [forward] returns begins with
    the text of the first document the retriever yields and holds the
    text of each of its first three documents verbatim; the string
    [get_guest_info_retirever] returns begins with the text of the first
    node and holds the text of every node the retriever yields. *)
Theorem retrieved_texts_occur_in_result (Retriever : Type)
    (invoke : Retriever -> string -> list Smolagents.Document)
    (LRetriever : Type)
    (retrieve : LRetriever -> string -> list LlamaIndex.NodeWithScore)
    (self : Smolagents.GuestInfoRetrieverTool Retriever)
    (g : LlamaIndex.Globals LRetriever) (query : string) :
  (forall d ds, invoke (Smolagents.retriever _ self) query = d :: ds ->
     exists post, Smolagents.forward_result _ invoke self query
                  = Smolagents.page_content d +:+ post)
  /\ (forall d, d ∈ take 3 (invoke (Smolagents.retriever _ self) query) ->
        occurs_in (Smolagents.page_content d)
          (Smolagents.forward_result _ invoke self query))
  /\ (forall n ns, retrieve (LlamaIndex.bm25_retirever _ g) query = n :: ns ->
        exists post, LlamaIndex.get_guest_info_result _ retrieve g query
                     = LlamaIndex.node_text n +:+ post)
  /\ (forall n, n ∈ retrieve (LlamaIndex.bm25_retirever _ g) query ->
        occurs_in (LlamaIndex.node_text n)
          (LlamaIndex.get_guest_info_result _ retrieve g query)).
Proof.
  split; [|split; [|split]].
  - intros d ds Hres. unfold Smolagents.forward_result.
    rewrite forward_run, Hres. cbn [fst truthy take map].
    destruct (map Smolagents.page_content (take 2 ds)) as [|t ts];
      cbn [str_join].
    + exists "". now rewrite str_append_nil_r.
    + now eexists.
  - intros d Hd. unfold Smolagents.forward_result. rewrite forward_run.
    cbn [fst].
    destruct (invoke (Smolagents.retriever _ self) query) as [|d0 ds];
      [now apply not_elem_of_nil in Hd|].
    cbn [truthy]. apply str_join_occurs.
    apply list_elem_of_fmap. now exists d.
  - intros n ns Hres. unfold LlamaIndex.get_guest_info_result.
    rewrite get_guest_info_run, Hres. cbn [fst truthy map].
    destruct (map LlamaIndex.node_text ns) as [|t ts]; cbn [str_join].
    + exists "". now rewrite str_append_nil_r.
    + now eexists.
  - intros n Hn. unfold LlamaIndex.get_guest_info_result.
    rewrite get_guest_info_run. cbn [fst].
    destruct (retrieve (LlamaIndex.bm25_retirever _ g) query) as [|n0 ns];
      [now apply not_elem_of_nil in Hn|].
    cbn [truthy]. apply str_join_occurs.
    apply list_elem_of_fmap. now exists n.
Qed.

Lemma retrieved_texts_occur_in_result_witness :
  occurs_in (Smolagents.page_content (Smolagents.make_document ada))
    (Smolagents.forward_result _ Bm25.search
       (sample_tool 4 [ada; marie]) "Ada Lovelace").
Proof.
  apply (proj1 (proj2 (retrieved_texts_occur_in_result _ Bm25.search
                         _ Bm25.search_nodes
                         (sample_tool 4 [ada; marie])
                         (sample_globals 4 [ada; marie])
                         "Ada Lovelace"))).
  vm_compute. left.
Defined.
